(** * The V8 sandbox: a model of [src/sandbox/sandbox.h]

    The header declares the class [Sandbox], its nested class
    [SandboxedPointerConstants] and the free function
    [EmptyBackingStoreBuffer].  Everything that the header defines inline is
    transcribed below, one definition per method, under the method's own
    name.  The three lifecycle methods that the header only declares
    ([Initialize] and its two private overloads, [InitializeConstants],
    [TearDown]) live in [sandbox.cc]; they are modelled from the written
    specification and marked as such. *)

From Stdlib Require Import ZArith Bool List Lia.
Import ListNotations.
Local Open Scope Z_scope.

(** ** Machine integers

    [Address] is [uintptr_t] and sizes are [size_t]; on the 64-bit targets
    that the sandbox supports both are 64-bit unsigned integers.  They are
    modelled as [Z], and every arithmetic operation of the source is followed
    by an explicit reduction modulo [2^64]. *)

Definition Address := Z.
Definition size_t := Z.

Definition kAddressBits : Z := 64.
Definition kAddressSpaceEnd : Z := 2 ^ kAddressBits.
Definition kNullAddress : Address := 0.

Definition wrap (z : Z) : Z := z mod kAddressSpaceEnd.

Definition is_address (a : Z) : Prop := 0 <= a < kAddressSpaceEnd.

(** Unsigned addition and subtraction as the hardware performs them. *)
Definition uadd (a b : Z) : Z := wrap (a + b).
Definition usub (a b : Z) : Z := wrap (a - b).

(** ** Outcomes of operations guarded by [CHECK]

    A failing [CHECK] aborts the process: no state is handed back. *)

Inductive Outcome (A : Type) : Type :=
| Returns (a : A)
| CheckFailed.
Arguments Returns {A} a.
Arguments CheckFailed {A}.

Definition bind {A B : Type} (m : Outcome A) (k : A -> Outcome B) : Outcome B :=
  match m with
  | Returns a => k a
  | CheckFailed => CheckFailed
  end.

Definition CHECK (b : bool) : Outcome unit :=
  if b then Returns tt else CheckFailed.

Notation "x <- m ;; k" := (bind m (fun x => k))
  (at level 61, m at next level, right associativity).
Notation "m ;;; k" := (bind m (fun _ => k))
  (at level 61, right associativity).

(** ** Pointers

    A [void*] is a distinct type from [Address]; [reinterpret_cast] between
    the two keeps the bit pattern. *)

Record void_ptr : Type := { ptr_bits : Z }.

Definition reinterpret_cast_Address (p : void_ptr) : Address := ptr_bits p.
Definition reinterpret_cast_void_ptr (a : Address) : void_ptr := {| ptr_bits := a |}.
Definition nullptr : void_ptr := {| ptr_bits := 0 |}.

(** ** [Sandbox::SandboxedPointerConstants] *)

Module SandboxedPointerConstants.

Record t : Type := { empty_backing_store_buffer_ : Address }.

(** [Address empty_backing_store_buffer_ = 0;] *)
Definition initial : t := {| empty_backing_store_buffer_ := 0 |}.

Definition empty_backing_store_buffer (c : t) : Address :=
  empty_backing_store_buffer_ c.

(** Offset of the only data member inside the object. *)
Definition offsetof_empty_backing_store_buffer_ : Z := 0.

(** [reinterpret_cast<Address>(&empty_backing_store_buffer_)], for the
    object that lives at address [this]. *)
Definition empty_backing_store_buffer_address (this : Address) : Address :=
  this + offsetof_empty_backing_store_buffer_.

Definition set_empty_backing_store_buffer (value : Address) (c : t) : t :=
  {| empty_backing_store_buffer_ := value |}.

Definition Reset (c : t) : t := {| empty_backing_store_buffer_ := 0 |}.

(** Reading an [Address]-sized word from the storage occupied by the
    object at [this]: the word at the member's address is the member. *)
Definition load (this : Address) (c : t) (a : Address) : option Address :=
  if a =? this + offsetof_empty_backing_store_buffer_
  then Some (empty_backing_store_buffer_ c)
  else None.

End SandboxedPointerConstants.

(** ** The objects behind the two [unique_ptr] members

    The header only stores and returns these pointers; what is recorded here
    is the region each object manages. *)

Record AddressSpaceHandle : Type := {
  space_base : Address;
  space_size : size_t;
  (** size of the part really reserved from the parent space *)
  space_reserved : size_t
}.

Record PageAllocatorHandle : Type := {
  allocator_base : Address;
  allocator_size : size_t
}.

(** ** [class Sandbox] *)

Record Sandbox : Type := {
  base_ : Address;
  end_ : Address;
  size_ : size_t;
  reservation_base_ : Address;
  reservation_size_ : size_t;
  initialized_ : bool;
  disabled_ : bool;
  address_space_ : option AddressSpaceHandle;
  sandbox_page_allocator_ : option PageAllocatorHandle;
  constants_ : SandboxedPointerConstants.t
}.

(** [Sandbox() = default;] with the default member initializers. *)
Definition Sandbox_default : Sandbox := {|
  base_ := kNullAddress;
  end_ := kNullAddress;
  size_ := 0;
  reservation_base_ := kNullAddress;
  reservation_size_ := 0;
  initialized_ := false;
  disabled_ := false;
  address_space_ := None;
  sandbox_page_allocator_ := None;
  constants_ := SandboxedPointerConstants.initial
|}.

(** [void Disable() { CHECK(!initialized_); disabled_ = true; }] *)
Definition Disable (s : Sandbox) : Outcome Sandbox :=
  CHECK (negb (initialized_ s)) ;;;
  Returns {|
    base_ := base_ s;
    end_ := end_ s;
    size_ := size_ s;
    reservation_base_ := reservation_base_ s;
    reservation_size_ := reservation_size_ s;
    initialized_ := initialized_ s;
    disabled_ := true;
    address_space_ := address_space_ s;
    sandbox_page_allocator_ := sandbox_page_allocator_ s;
    constants_ := constants_ s
  |}.

Definition is_initialized (s : Sandbox) : bool := initialized_ s.
Definition is_disabled (s : Sandbox) : bool := disabled_ s.
Definition is_enabled (s : Sandbox) : bool := negb (disabled_ s).

Definition is_partially_reserved (s : Sandbox) : bool :=
  reservation_size_ s <? size_ s.

Definition base (s : Sandbox) : Address := base_ s.
Definition end' (s : Sandbox) : Address := end_ s.
Definition size (s : Sandbox) : size_t := size_ s.
Definition reservation_size (s : Sandbox) : size_t := reservation_size_ s.

Definition address_space (s : Sandbox) : option AddressSpaceHandle :=
  address_space_ s.
Definition page_allocator (s : Sandbox) : option PageAllocatorHandle :=
  sandbox_page_allocator_ s.

(** [return addr >= base_ && addr < base_ + size_;] *)
Definition Contains (s : Sandbox) (addr : Address) : bool :=
  (base_ s <=? addr) && (addr <? uadd (base_ s) (size_ s)).

(** [return Contains(reinterpret_cast<Address>(ptr));] *)
Definition Contains_ptr (s : Sandbox) (ptr : void_ptr) : bool :=
  Contains s (reinterpret_cast_Address ptr).

Definition constants (s : Sandbox) : SandboxedPointerConstants.t := constants_ s.

(** *** Object layout

    Offsets of the data members in declaration order, as the LP64 ABI lays
    out the class: five 8-byte words, two [bool]s padded to the next word,
    two pointers, and the one-word constants object. *)

Definition offsetof_base_ : Z := 0.
Definition offsetof_end_ : Z := 8.
Definition offsetof_size_ : Z := 16.
Definition offsetof_reservation_base_ : Z := 24.
Definition offsetof_reservation_size_ : Z := 32.
Definition offsetof_initialized_ : Z := 40.
Definition offsetof_disabled_ : Z := 41.
Definition offsetof_address_space_ : Z := 48.
Definition offsetof_sandbox_page_allocator_ : Z := 56.
Definition offsetof_constants_ : Z := 64.

(** [reinterpret_cast<Address>(&base_)] and its two siblings, for the
    sandbox object that lives at address [this]. *)
Definition base_address (this : Address) : Address := this + offsetof_base_.
Definition end_address (this : Address) : Address := this + offsetof_end_.
Definition size_address (this : Address) : Address := this + offsetof_size_.

(** Address of the [constants_] member, the object [constants()] refers to. *)
Definition constants_address (this : Address) : Address :=
  this + offsetof_constants_.

(** Reading an [Address]-sized word from the storage of the sandbox object at
    [this].  Only the members of type [Address] or [size_t] are readable this
    way; the constants object answers for its own storage. *)
Definition load (this : Address) (s : Sandbox) (a : Address) : option Address :=
  if a =? this + offsetof_base_ then Some (base_ s)
  else if a =? this + offsetof_end_ then Some (end_ s)
  else if a =? this + offsetof_size_ then Some (size_ s)
  else if a =? this + offsetof_reservation_base_ then Some (reservation_base_ s)
  else if a =? this + offsetof_reservation_size_ then Some (reservation_size_ s)
  else SandboxedPointerConstants.load (constants_address this) (constants_ s) a.

(** ** The process-wide sandbox and [EmptyBackingStoreBuffer] *)

(** The part of the process state that the header reaches: the one sandbox
    object behind [GetProcessWideSandbox()]. *)
Record Process : Type := { process_wide_sandbox : Sandbox }.

(** Modelled from the spec: [GetProcessWideSandbox] is declared in the header
    and defined elsewhere.  Section 4.5 describes it as the accessor of the
    single, globally reachable sandbox instance. *)
Definition GetProcessWideSandbox (p : Process) : Sandbox :=
  process_wide_sandbox p.

(** The free function at the end of the header.  The preprocessor symbol
    [V8_SANDBOXED_POINTERS] selects one of the two bodies at build time; it is
    the first argument here. *)
Definition EmptyBackingStoreBuffer (V8_SANDBOXED_POINTERS : bool) (p : Process)
  : void_ptr :=
  if V8_SANDBOXED_POINTERS then
    reinterpret_cast_void_ptr
      (SandboxedPointerConstants.empty_backing_store_buffer
         (constants (GetProcessWideSandbox p)))
  else nullptr.

(** ** The lifecycle methods that the header only declares *)

(** Modelled from the spec: the tuning constants are external to the header
    (section 9 calls them injectable configuration): the default sandbox
    size, the size of one guard region, the alignment of the sandbox base, the
    smaller size reserved by the fallback, and the address that
    initialization chooses for the empty backing store. *)
Record SandboxConfig : Type := {
  sandbox_size : size_t;
  guard_region_size : size_t;
  sandbox_alignment : Z;
  fallback_reservation_size : size_t;
  empty_backing_store_for : Address -> size_t -> Address
}.

(** Modelled from the spec: the AddressSpace capability of section 6.  A
    request either fails ([None], the null result) or yields the new
    subspace, respectively the base of the reserved range. *)
Record VirtualAddressSpace : Type := {
  allocation_granularity : size_t;
  AllocateSubspace : size_t -> Z -> option AddressSpaceHandle;
  ReservePages : size_t -> Z -> option Address
}.

Definition is_multiple_of (n g : Z) : bool := n mod g =? 0.

(** Modelled from the spec: [InitializeConstants] is declared in the header
    only.  Section 8: initialization sets the constant to a specific
    address. *)
Definition InitializeConstants (cfg : SandboxConfig) (s : Sandbox) : Sandbox := {|
  base_ := base_ s;
  end_ := end_ s;
  size_ := size_ s;
  reservation_base_ := reservation_base_ s;
  reservation_size_ := reservation_size_ s;
  initialized_ := initialized_ s;
  disabled_ := disabled_ s;
  address_space_ := address_space_ s;
  sandbox_page_allocator_ := sandbox_page_allocator_ s;
  constants_ :=
    SandboxedPointerConstants.set_empty_backing_store_buffer
      (empty_backing_store_for cfg (base_ s) (size_ s)) (constants_ s)
|}.

(** Modelled from the spec: the state that a successful reservation
    establishes (sections 4.1 and 4.3): the geometry with [end == base + size],
    the owned address space, the page allocator bound to the sandbox region,
    and the [initialized] flag. *)
Definition establish (s : Sandbox) (reservation_base base : Address)
    (size reservation_size : size_t) (space : AddressSpaceHandle) : Sandbox := {|
  base_ := base;
  end_ := uadd base size;
  size_ := size;
  reservation_base_ := reservation_base;
  reservation_size_ := reservation_size;
  initialized_ := true;
  disabled_ := disabled_ s;
  address_space_ := Some space;
  sandbox_page_allocator_ :=
    Some {| allocator_base := base; allocator_size := size |};
  constants_ := constants_ s
|}.

(** Modelled from the spec: the private overload
    [Initialize(vas, size, use_guard_regions)] is declared in the header only.
    Section 4.1: reserve [size + 2 * guardSize] as one subspace; the inner
    [size] bytes become [[base, end)]; on failure nothing is applied.  The
    size must be a multiple of the allocation granularity, and the sandbox
    must be neither initialized (section 4.3) nor disabled (section 3 makes
    the two flags mutually exclusive). *)
Definition Initialize_with_size (cfg : SandboxConfig) (vas : VirtualAddressSpace)
    (size : size_t) (use_guard_regions : bool) (s : Sandbox)
  : Outcome (bool * Sandbox) :=
  CHECK (negb (initialized_ s)) ;;;
  CHECK (negb (disabled_ s)) ;;;
  CHECK (is_multiple_of size (allocation_granularity vas)) ;;;
  let guard := if use_guard_regions then guard_region_size cfg else 0 in
  let reservation_size := uadd size (wrap (2 * guard)) in
  match AllocateSubspace vas reservation_size (sandbox_alignment cfg) with
  | None => Returns (false, s)
  | Some space =>
      Returns (true,
               InitializeConstants cfg
                 (establish s (space_base space) (uadd (space_base space) guard)
                    size reservation_size space))
  end.

(** Modelled from the spec: the emulated address space of section 4.2, which
    advertises [size] bytes at [reservation_base] while only
    [size_to_reserve] of them are reserved. *)
Definition emulated_subspace (reservation_base : Address)
    (size size_to_reserve : size_t) : AddressSpaceHandle := {|
  space_base := reservation_base;
  space_size := size;
  space_reserved := size_to_reserve
|}.

(** Modelled from the spec: [InitializeAsPartiallyReservedSandbox] is
    declared in the header only.  Section 4.2: reserve only [size_to_reserve],
    smaller than [size], and put an emulated address space of the full size on
    top; no guard regions.  Both sizes must be multiples of the allocation
    granularity. *)
Definition InitializeAsPartiallyReservedSandbox (cfg : SandboxConfig)
    (vas : VirtualAddressSpace) (size size_to_reserve : size_t) (s : Sandbox)
  : Outcome (bool * Sandbox) :=
  CHECK (negb (initialized_ s)) ;;;
  CHECK (negb (disabled_ s)) ;;;
  CHECK (is_multiple_of size (allocation_granularity vas)) ;;;
  CHECK (is_multiple_of size_to_reserve (allocation_granularity vas)) ;;;
  CHECK (size_to_reserve <? size) ;;;
  match ReservePages vas size_to_reserve (sandbox_alignment cfg) with
  | None => Returns (false, s)
  | Some reservation_base =>
      Returns (true,
               InitializeConstants cfg
                 (establish s reservation_base reservation_base size
                    size_to_reserve
                    (emulated_subspace reservation_base size size_to_reserve)))
  end.

(** Modelled from the spec: the public [Initialize(vas)] is declared in the
    header only.  Section 4.3: try the full reservation with the default size
    and guard regions; when that fails, try the partial reservation with the
    smaller default; when that fails too, report failure. *)
Definition Initialize (cfg : SandboxConfig) (vas : VirtualAddressSpace)
    (s : Sandbox) : Outcome (bool * Sandbox) :=
  full <- Initialize_with_size cfg vas (sandbox_size cfg) true s ;;
  if fst full then Returns full
  else
    InitializeAsPartiallyReservedSandbox cfg vas (sandbox_size cfg)
      (fallback_reservation_size cfg) (snd full).

(** Modelled from the spec: [TearDown] is declared in the header only.
    Section 4.3: release the address space and the page allocator, put every
    geometry field back to its sentinel and clear [initialized]; section 4.4:
    the constants are reset to the sentinel. *)
Definition TearDown (s : Sandbox) : Sandbox := {|
  base_ := kNullAddress;
  end_ := kNullAddress;
  size_ := 0;
  reservation_base_ := kNullAddress;
  reservation_size_ := 0;
  initialized_ := false;
  disabled_ := disabled_ s;
  address_space_ := None;
  sandbox_page_allocator_ := None;
  constants_ := SandboxedPointerConstants.Reset (constants_ s)
|}.

(** ** Lifetimes: sequences of public calls on one sandbox *)

Inductive Call : Type :=
| CallInitialize (vas : VirtualAddressSpace)
| CallDisable
| CallTearDown.

Definition perform (cfg : SandboxConfig) (c : Call) (s : Sandbox)
  : Outcome Sandbox :=
  match c with
  | CallInitialize vas => r <- Initialize cfg vas s ;; Returns (snd r)
  | CallDisable => Disable s
  | CallTearDown => Returns (TearDown s)
  end.

Fixpoint run (cfg : SandboxConfig) (cs : list Call) (s : Sandbox)
  : Outcome Sandbox :=
  match cs with
  | [] => Returns s
  | c :: rest => s' <- perform cfg c s ;; run cfg rest s'
  end.

(** The address spaces handed to [Initialize] along a lifetime are drawn from
    [spaces]. *)
Definition call_uses (spaces : VirtualAddressSpace -> Prop) (c : Call) : Prop :=
  match c with
  | CallInitialize vas => spaces vas
  | _ => True
  end.

(** States reachable from a freshly constructed sandbox. *)
Inductive reachable (cfg : SandboxConfig) (spaces : VirtualAddressSpace -> Prop)
  : Sandbox -> Prop :=
| reachable_fresh : reachable cfg spaces Sandbox_default
| reachable_call (s s' : Sandbox) (c : Call) :
    reachable cfg spaces s ->
    call_uses spaces c ->
    perform cfg c s = Returns s' ->
    reachable cfg spaces s'.

Definition any_space (vas : VirtualAddressSpace) : Prop := True.

(** ** Assumptions on the environment *)

(** The tuning constants describe a non-empty sandbox. *)
Record config_ok (cfg : SandboxConfig) : Prop := {
  sandbox_size_positive : 0 < sandbox_size cfg;
  sandbox_size_fits : sandbox_size cfg + 2 * guard_region_size cfg < kAddressSpaceEnd;
  guard_region_nonneg : 0 <= guard_region_size cfg
}.

(** An address space only hands out ranges that lie inside the 64-bit address
    space; a range reserved for the fallback lies low enough for the emulated
    sandbox of the full size to end inside the address space as well. *)
Record space_ok (cfg : SandboxConfig) (vas : VirtualAddressSpace) : Prop := {
  subspace_in_range : forall sz al space,
    AllocateSubspace vas sz al = Some space ->
    0 <= space_base space /\ space_base space + sz < kAddressSpaceEnd;
  pages_in_range : forall sz al b,
    ReservePages vas sz al = Some b ->
    0 <= b /\ b + sandbox_size cfg < kAddressSpaceEnd
}.

(** What the data model of section 3 says about the geometry of an
    initialized sandbox: a non-empty range inside the address space. *)
Record geometry_ok (s : Sandbox) : Prop := {
  geometry_base : 0 <= base_ s;
  geometry_size : 0 < size_ s;
  geometry_fits : base_ s + size_ s < kAddressSpaceEnd;
  geometry_end : end_ s = base_ s + size_ s
}.

(** The two requests that [Initialize] makes of the address space. *)
Definition full_reservation_size (cfg : SandboxConfig) : size_t :=
  uadd (sandbox_size cfg) (wrap (2 * guard_region_size cfg)).

Record fails_every_attempt (cfg : SandboxConfig) (vas : VirtualAddressSpace)
  : Prop := {
  full_attempt_fails :
    AllocateSubspace vas (full_reservation_size cfg) (sandbox_alignment cfg) = None;
  fallback_attempt_fails :
    ReservePages vas (fallback_reservation_size cfg) (sandbox_alignment cfg) = None
}.

(** What a caller of [Initialize] owes: a sandbox that is neither initialized
    nor disabled, and sizes that agree with the allocation granularity. *)
Record initialize_preconditions (cfg : SandboxConfig) (vas : VirtualAddressSpace)
    (s : Sandbox) : Prop := {
  pre_uninitialized : initialized_ s = false;
  pre_enabled : disabled_ s = false;
  pre_size_aligned :
    is_multiple_of (sandbox_size cfg) (allocation_granularity vas) = true;
  pre_fallback_aligned :
    is_multiple_of (fallback_reservation_size cfg) (allocation_granularity vas) = true;
  pre_fallback_smaller : fallback_reservation_size cfg < sandbox_size cfg
}.

(** Invariants that every lifetime maintains. *)
Record lifecycle_inv (s : Sandbox) : Prop := {
  inv_end : end_ s = uadd (base_ s) (size_ s);
  inv_exclusive : initialized_ s && disabled_ s = false;
  inv_uninitialized :
    initialized_ s = false ->
    base_ s = 0 /\ end_ s = 0 /\ size_ s = 0 /\
    reservation_base_ s = 0 /\ reservation_size_ s = 0 /\
    address_space_ s = None /\ sandbox_page_allocator_ s = None
}.

(** The bounds facts of section 8 for one sandbox; [base() - 1] is computed
    on [Address], hence [usub]. *)
Definition Contains_respects_bounds (s : Sandbox) : Prop :=
  Contains s (base s) = true /\
  Contains s (end' s) = false /\
  Contains s (usub (base s) 1) = false /\
  (forall a, base s <= a < end' s -> Contains s a = true).

(** Every member other than [disabled_] agrees in the two states. *)
Definition same_but_disabled (s s' : Sandbox) : Prop :=
  base s' = base s /\
  end' s' = end' s /\
  size s' = size s /\
  reservation_base_ s' = reservation_base_ s /\
  reservation_size s' = reservation_size s /\
  is_initialized s' = is_initialized s /\
  address_space s' = address_space s /\
  page_allocator s' = page_allocator s /\
  constants s' = constants s.

(** ** Concrete configurations and address spaces *)

(** A 1 TB sandbox between two 32 GB guard regions, based at a multiple of
    4 GB, with an 8 GB fallback reservation. *)
Definition example_config : SandboxConfig := {|
  sandbox_size := 2 ^ 40;
  guard_region_size := 2 ^ 35;
  sandbox_alignment := 2 ^ 32;
  fallback_reservation_size := 2 ^ 33;
  empty_backing_store_for := fun base size => usub (uadd base size) 1
|}.

(** An address space with 4 KB granularity that places every request of at
    most 2^46 bytes at 2^44. *)
Definition granting_space : VirtualAddressSpace := {|
  allocation_granularity := 4096;
  AllocateSubspace := fun sz _ =>
    if sz <=? 2 ^ 46
    then Some {| space_base := 2 ^ 44; space_size := sz; space_reserved := sz |}
    else None;
  ReservePages := fun sz _ => if sz <=? 2 ^ 46 then Some (2 ^ 44) else None
|}.

(** An address space that cannot create subspaces but can reserve pages. *)
Definition pages_only_space : VirtualAddressSpace := {|
  allocation_granularity := 4096;
  AllocateSubspace := fun _ _ => None;
  ReservePages := fun sz _ => if sz <=? 2 ^ 46 then Some (2 ^ 44) else None
|}.

(** An exhausted address space: every request fails. *)
Definition exhausted_space : VirtualAddressSpace := {|
  allocation_granularity := 4096;
  AllocateSubspace := fun _ _ => None;
  ReservePages := fun _ _ => None
|}.

(** The sandbox after a successful full initialization in [granting_space]. *)
Definition example_full_sandbox : Sandbox := {|
  base_ := 2 ^ 44 + 2 ^ 35;
  end_ := 2 ^ 44 + 2 ^ 35 + 2 ^ 40;
  size_ := 2 ^ 40;
  reservation_base_ := 2 ^ 44;
  reservation_size_ := 2 ^ 40 + 2 ^ 36;
  initialized_ := true;
  disabled_ := false;
  address_space_ :=
    Some {| space_base := 2 ^ 44;
            space_size := 2 ^ 40 + 2 ^ 36;
            space_reserved := 2 ^ 40 + 2 ^ 36 |};
  sandbox_page_allocator_ :=
    Some {| allocator_base := 2 ^ 44 + 2 ^ 35; allocator_size := 2 ^ 40 |};
  constants_ :=
    {| SandboxedPointerConstants.empty_backing_store_buffer_ :=
         2 ^ 44 + 2 ^ 35 + 2 ^ 40 - 1 |}
|}.

(** The sandbox after the fallback succeeded in [pages_only_space]. *)
Definition example_partial_sandbox : Sandbox := {|
  base_ := 2 ^ 44;
  end_ := 2 ^ 44 + 2 ^ 40;
  size_ := 2 ^ 40;
  reservation_base_ := 2 ^ 44;
  reservation_size_ := 2 ^ 33;
  initialized_ := true;
  disabled_ := false;
  address_space_ :=
    Some {| space_base := 2 ^ 44;
            space_size := 2 ^ 40;
            space_reserved := 2 ^ 33 |};
  sandbox_page_allocator_ :=
    Some {| allocator_base := 2 ^ 44; allocator_size := 2 ^ 40 |};
  constants_ :=
    {| SandboxedPointerConstants.empty_backing_store_buffer_ :=
         2 ^ 44 + 2 ^ 40 - 1 |}
|}.

(** A freshly constructed sandbox after [Disable()]. *)
Definition example_disabled_sandbox : Sandbox := {|
  base_ := 0;
  end_ := 0;
  size_ := 0;
  reservation_base_ := 0;
  reservation_size_ := 0;
  initialized_ := false;
  disabled_ := true;
  address_space_ := None;
  sandbox_page_allocator_ := None;
  constants_ := SandboxedPointerConstants.initial
|}.

(** An initialized sandbox with the given base and size and no guard
    regions; [end_] is the sum as the hardware computes it. *)
Definition sandbox_at (b : Address) (sz : size_t) : Sandbox := {|
  base_ := b;
  end_ := uadd b sz;
  size_ := sz;
  reservation_base_ := b;
  reservation_size_ := sz;
  initialized_ := true;
  disabled_ := false;
  address_space_ :=
    Some {| space_base := b; space_size := sz; space_reserved := sz |};
  sandbox_page_allocator_ :=
    Some {| allocator_base := b; allocator_size := sz |};
  constants_ := SandboxedPointerConstants.initial
|}.

(** The last 4 KB page of the address space: [base_ + size_] is [2^64]. *)
Definition top_page_sandbox : Sandbox := sandbox_at (2 ^ 64 - 4096) 4096.

(** A region of no bytes at a non-null base. *)
Definition zero_size_sandbox : Sandbox := sandbox_at 4096 0.

(** A process whose sandbox has just been constructed. *)
Definition fresh_process : Process := {| process_wide_sandbox := Sandbox_default |}.

(** A process whose sandbox is the fully reserved example. *)
Definition example_process : Process :=
  {| process_wide_sandbox := example_full_sandbox |}.

(** ** Proof automation *)

(** Settles the address comparisons that [load] makes. *)
Ltac decide_addresses :=
  repeat match goal with
         | |- context [?a =? ?b] => destruct (Z.eqb_spec a b); try lia
         end.

(** * Properties *)

(** ** Address arithmetic *)

Lemma kAddressSpaceEnd_value : kAddressSpaceEnd = 18446744073709551616.
Proof. reflexivity. Qed.

Lemma wrap_range (z : Z) : is_address (wrap z).
Proof.
  unfold is_address, wrap. rewrite kAddressSpaceEnd_value.
  apply Z.mod_pos_bound. lia.
Qed.

Lemma wrap_small (z : Z) : is_address z -> wrap z = z.
Proof. unfold is_address, wrap. intros H. apply Z.mod_small. exact H. Qed.

Lemma uadd_exact (a b : Z) : is_address (a + b) -> uadd a b = a + b.
Proof. apply wrap_small. Qed.

Lemma usub_exact (a b : Z) : is_address (a - b) -> usub a b = a - b.
Proof. apply wrap_small. Qed.

Lemma usub_zero_one : usub 0 1 = kAddressSpaceEnd - 1.
Proof. reflexivity. Qed.

(** ** Running the examples *)

Example run_full_initialization :
  Initialize example_config granting_space Sandbox_default
  = Returns (true, example_full_sandbox).
Proof. vm_compute. reflexivity. Qed.

Example run_fallback_initialization :
  Initialize example_config pages_only_space Sandbox_default
  = Returns (true, example_partial_sandbox).
Proof. vm_compute. reflexivity. Qed.

Example run_failed_initialization :
  Initialize example_config exhausted_space Sandbox_default
  = Returns (false, Sandbox_default).
Proof. vm_compute. reflexivity. Qed.

Example run_disable :
  Disable Sandbox_default = Returns example_disabled_sandbox.
Proof. reflexivity. Qed.

Example run_teardown :
  TearDown example_full_sandbox = Sandbox_default.
Proof. reflexivity. Qed.

Example run_initialize_twice :
  Initialize example_config granting_space example_full_sandbox = CheckFailed.
Proof. reflexivity. Qed.

Example run_contains_inside :
  Contains example_full_sandbox (2 ^ 44 + 2 ^ 35 + 4096) = true.
Proof. vm_compute. reflexivity. Qed.

Example run_contains_guard_region :
  Contains example_full_sandbox (2 ^ 44 + 4096) = false.
Proof. vm_compute. reflexivity. Qed.

(** ** [Contains] *)

Lemma Contains_true_iff (s : Sandbox) (a : Address) :
  Contains s a = true <-> base s <= a /\ a < uadd (base s) (size s).
Proof.
  unfold Contains, base, size.
  rewrite andb_true_iff, Z.leb_le, Z.ltb_lt. reflexivity.
Qed.

Lemma Contains_false_iff (s : Sandbox) (a : Address) :
  Contains s a = false <-> a < base s \/ uadd (base s) (size s) <= a.
Proof.
  unfold Contains, base, size.
  rewrite andb_false_iff, Z.leb_gt, Z.ltb_ge. reflexivity.
Qed.

Lemma Contains_empty (s : Sandbox) (a : Address) :
  base s = 0 -> size s = 0 -> Contains s a = false.
Proof.
  intros Hb Hs. apply Contains_false_iff. rewrite Hb, Hs.
  change (uadd 0 0) with 0. lia.
Qed.

Lemma Contains_below_base (s : Sandbox) :
  is_address (base s) -> Contains s (usub (base s) 1) = false.
Proof.
  intros Hb. apply Contains_false_iff.
  destruct (Z.eq_dec (base s) 0) as [E | E].
  - right. rewrite E, usub_zero_one.
    pose proof (wrap_range (0 + size s)) as H. unfold is_address in H.
    unfold uadd. lia.
  - left. unfold is_address in Hb. rewrite usub_exact.
    + lia.
    + unfold is_address. lia.
Qed.

Lemma Contains_geometry (s : Sandbox) :
  geometry_ok s ->
  Contains s (base s) = true /\
  Contains s (end' s) = false /\
  Contains s (usub (base s) 1) = false /\
  (forall a, base s <= a < end' s -> Contains s a = true).
Proof.
  intros [Hbase Hsize Hfits Hend].
  assert (Hsum : uadd (base s) (size s) = base s + size s).
  { apply uadd_exact. unfold is_address, base, size. lia. }
  repeat split.
  - apply Contains_true_iff. rewrite Hsum. unfold base, size. lia.
  - apply Contains_false_iff. right. rewrite Hsum. unfold end', base, size. lia.
  - apply Contains_below_base. unfold is_address, base. lia.
  - intros a Ha. apply Contains_true_iff. rewrite Hsum.
    unfold end', base, size in *. lia.
Qed.

(** ** Outcomes of the lifecycle methods *)

Lemma CHECK_returns {A : Type} (b : bool) (k : Outcome A) (r : A) :
  (CHECK b ;;; k) = Returns r -> b = true /\ k = Returns r.
Proof. destruct b; simpl; [auto | discriminate]. Qed.

Lemma CHECK_passes {A : Type} (b : bool) (k : Outcome A) :
  b = true -> (CHECK b ;;; k) = k.
Proof. intros ->. reflexivity. Qed.

Lemma Disable_returns (s s' : Sandbox) :
  Disable s = Returns s' ->
  initialized_ s = false /\ initialized_ s' = false /\ disabled_ s' = true /\
  base_ s' = base_ s /\ end_ s' = end_ s /\ size_ s' = size_ s /\
  reservation_base_ s' = reservation_base_ s /\
  reservation_size_ s' = reservation_size_ s /\
  address_space_ s' = address_space_ s /\
  sandbox_page_allocator_ s' = sandbox_page_allocator_ s /\
  constants_ s' = constants_ s.
Proof.
  unfold Disable. intros H. apply CHECK_returns in H. destruct H as [Hc H].
  apply negb_true_iff in Hc. injection H as <-. simpl. rewrite Hc. tauto.
Qed.

Lemma Disable_uninitialized (s : Sandbox) :
  initialized_ s = false -> exists s', Disable s = Returns s'.
Proof. intros H. unfold Disable. rewrite H. simpl. eauto. Qed.

Lemma Disable_initialized (s : Sandbox) :
  initialized_ s = true -> Disable s = CheckFailed.
Proof. intros H. unfold Disable. rewrite H. reflexivity. Qed.

Lemma Initialize_outcome (cfg : SandboxConfig) (vas : VirtualAddressSpace)
    (s s' : Sandbox) (b : bool) :
  Initialize cfg vas s = Returns (b, s') ->
  initialized_ s = false /\ disabled_ s = false /\
  ((b = false /\ s' = s) \/
   (b = true /\ exists space,
      AllocateSubspace vas (full_reservation_size cfg) (sandbox_alignment cfg)
        = Some space /\
      s' = InitializeConstants cfg
             (establish s (space_base space)
                (uadd (space_base space) (guard_region_size cfg))
                (sandbox_size cfg) (full_reservation_size cfg) space)) \/
   (b = true /\ exists rb,
      ReservePages vas (fallback_reservation_size cfg) (sandbox_alignment cfg)
        = Some rb /\
      fallback_reservation_size cfg < sandbox_size cfg /\
      s' = InitializeConstants cfg
             (establish s rb rb (sandbox_size cfg)
                (fallback_reservation_size cfg)
                (emulated_subspace rb (sandbox_size cfg)
                   (fallback_reservation_size cfg))))).
Proof.
  unfold Initialize, Initialize_with_size, InitializeAsPartiallyReservedSandbox.
  fold (full_reservation_size cfg). intros H.
  destruct (initialized_ s) eqn:Hi; [discriminate |].
  destruct (disabled_ s) eqn:Hd; [discriminate |].
  split; [reflexivity | split; [reflexivity |]].
  cbn [bind CHECK negb] in H.
  destruct (is_multiple_of (sandbox_size cfg) (allocation_granularity vas));
    [| discriminate].
  cbn [bind CHECK negb] in H.
  destruct (AllocateSubspace vas (full_reservation_size cfg)
              (sandbox_alignment cfg)) as [space |];
    cbn [bind CHECK negb fst snd] in H.
  - injection H as <- <-. right. left. split; [reflexivity |].
    exists space. split; reflexivity.
  - rewrite Hi, Hd in H. cbn [bind CHECK negb] in H.
    destruct (is_multiple_of (fallback_reservation_size cfg)
                (allocation_granularity vas)); [| discriminate].
    cbn [bind CHECK negb] in H.
    destruct (fallback_reservation_size cfg <? sandbox_size cfg) eqn:Hlt;
      [| discriminate].
    apply Z.ltb_lt in Hlt. cbn [bind CHECK negb] in H.
    destruct (ReservePages vas (fallback_reservation_size cfg)
                (sandbox_alignment cfg)) as [rb |].
    + injection H as <- <-. right. right. split; [reflexivity |].
      exists rb. repeat split. exact Hlt.
    + injection H as <- <-. left. split; reflexivity.
Qed.

Lemma perform_Initialize_returns (cfg : SandboxConfig)
    (vas : VirtualAddressSpace) (s s' : Sandbox) :
  perform cfg (CallInitialize vas) s = Returns s' ->
  exists b, Initialize cfg vas s = Returns (b, s').
Proof.
  unfold perform. destruct (Initialize cfg vas s) as [[b r] |]; simpl.
  - intros H. injection H as <-. exists b. reflexivity.
  - discriminate.
Qed.

(** ** Invariants of a lifetime *)

Lemma lifecycle_inv_fresh : lifecycle_inv Sandbox_default.
Proof. split; simpl; try reflexivity. intros _. repeat split. Qed.

Lemma lifecycle_inv_established (cfg : SandboxConfig) (s : Sandbox)
    (rb b : Address) (sz rs : size_t) (space : AddressSpaceHandle) :
  disabled_ s = false ->
  lifecycle_inv (InitializeConstants cfg (establish s rb b sz rs space)).
Proof.
  intros Hd. split; simpl.
  - reflexivity.
  - exact Hd.
  - discriminate.
Qed.

Lemma lifecycle_inv_perform (cfg : SandboxConfig) (c : Call) (s s' : Sandbox) :
  lifecycle_inv s -> perform cfg c s = Returns s' -> lifecycle_inv s'.
Proof.
  intros Hinv H. destruct c as [vas | |].
  - apply perform_Initialize_returns in H. destruct H as [b H].
    apply Initialize_outcome in H.
    destruct H as (_ & Hd & [[_ ->] | [(_ & space & _ & ->) | (_ & rb & _ & _ & ->)]]).
    + exact Hinv.
    + apply lifecycle_inv_established. exact Hd.
    + apply lifecycle_inv_established. exact Hd.
  - simpl in H. apply Disable_returns in H.
    destruct H as (Hi & Hi' & Hd' & Hb & He & Hs & Hrb & Hrs & Has & Hpa & _).
    destruct Hinv as [Hend _ Hun]. split.
    + rewrite He, Hb, Hs. exact Hend.
    + rewrite Hi'. reflexivity.
    + intros _. rewrite Hb, He, Hs, Hrb, Hrs, Has, Hpa. apply Hun. exact Hi.
  - simpl in H. injection H as <-. split; simpl.
    + reflexivity.
    + reflexivity.
    + intros _. repeat split.
Qed.

Lemma reachable_lifecycle_inv (cfg : SandboxConfig)
    (spaces : VirtualAddressSpace -> Prop) (s : Sandbox) :
  reachable cfg spaces s -> lifecycle_inv s.
Proof.
  induction 1 as [| s s' c _ IH _ Hstep].
  - apply lifecycle_inv_fresh.
  - apply (lifecycle_inv_perform cfg c s s' IH Hstep).
Qed.

Lemma reachable_weaken (cfg : SandboxConfig)
    (spaces spaces' : VirtualAddressSpace -> Prop) (s : Sandbox) :
  (forall vas, spaces vas -> spaces' vas) ->
  reachable cfg spaces s -> reachable cfg spaces' s.
Proof.
  intros Hsub. induction 1 as [| s s' c _ IH Huse Hstep].
  - apply reachable_fresh.
  - apply (reachable_call cfg spaces' s s' c IH); [| exact Hstep].
    destruct c; simpl in *; auto.
Qed.

Lemma reachable_run (cfg : SandboxConfig)
    (spaces : VirtualAddressSpace -> Prop) (cs : list Call) (s s' : Sandbox) :
  reachable cfg spaces s ->
  Forall (call_uses spaces) cs ->
  run cfg cs s = Returns s' ->
  reachable cfg spaces s'.
Proof.
  revert s. induction cs as [| c cs IH]; intros s Hs Hall Hrun.
  - simpl in Hrun. injection Hrun as <-. exact Hs.
  - simpl in Hrun. destruct (perform cfg c s) as [s1 |] eqn:Hstep;
      [| discriminate].
    simpl in Hrun. inversion Hall as [| ? ? Hc Hcs]; subst.
    apply (IH s1); [| exact Hcs | exact Hrun].
    apply (reachable_call cfg spaces s s1 c Hs Hc Hstep).
Qed.

Lemma full_reservation_size_exact (cfg : SandboxConfig) :
  config_ok cfg ->
  full_reservation_size cfg = sandbox_size cfg + 2 * guard_region_size cfg.
Proof.
  intros [Hpos Hfits Hguard]. unfold full_reservation_size.
  rewrite (wrap_small (2 * guard_region_size cfg)).
  - apply uadd_exact. unfold is_address. lia.
  - unfold is_address. lia.
Qed.

Lemma geometry_full (cfg : SandboxConfig) (vas : VirtualAddressSpace)
    (s : Sandbox) (space : AddressSpaceHandle) :
  config_ok cfg -> space_ok cfg vas ->
  AllocateSubspace vas (full_reservation_size cfg) (sandbox_alignment cfg)
    = Some space ->
  geometry_ok
    (InitializeConstants cfg
       (establish s (space_base space)
          (uadd (space_base space) (guard_region_size cfg))
          (sandbox_size cfg) (full_reservation_size cfg) space)).
Proof.
  intros Hcfg Hvas Ha.
  destruct (subspace_in_range cfg vas Hvas _ _ _ Ha) as [Hlo Hhi].
  rewrite (full_reservation_size_exact cfg Hcfg) in Hhi.
  destruct Hcfg as [Hpos Hfits Hguard].
  assert (Hb : uadd (space_base space) (guard_region_size cfg)
               = space_base space + guard_region_size cfg).
  { apply uadd_exact. unfold is_address. lia. }
  split; simpl; rewrite ?Hb.
  - lia.
  - exact Hpos.
  - lia.
  - apply uadd_exact. unfold is_address. lia.
Qed.

Lemma geometry_partial (cfg : SandboxConfig) (vas : VirtualAddressSpace)
    (s : Sandbox) (rb : Address) :
  config_ok cfg -> space_ok cfg vas ->
  ReservePages vas (fallback_reservation_size cfg) (sandbox_alignment cfg)
    = Some rb ->
  geometry_ok
    (InitializeConstants cfg
       (establish s rb rb (sandbox_size cfg) (fallback_reservation_size cfg)
          (emulated_subspace rb (sandbox_size cfg)
             (fallback_reservation_size cfg)))).
Proof.
  intros Hcfg Hvas Hr.
  destruct (pages_in_range cfg vas Hvas _ _ _ Hr) as [Hlo Hhi].
  destruct Hcfg as [Hpos Hfits Hguard].
  split; simpl.
  - exact Hlo.
  - exact Hpos.
  - exact Hhi.
  - apply uadd_exact. unfold is_address. lia.
Qed.

Lemma reachable_geometry (cfg : SandboxConfig) (s : Sandbox) :
  config_ok cfg ->
  reachable cfg (space_ok cfg) s ->
  initialized_ s = true ->
  geometry_ok s.
Proof.
  intros Hcfg. induction 1 as [| s s' c _ IH Huse Hstep]; intros Hinit.
  - discriminate.
  - destruct c as [vas | |].
    + apply perform_Initialize_returns in Hstep. destruct Hstep as [b Hstep].
      apply Initialize_outcome in Hstep.
      destruct Hstep as
        (Hi & _ & [[_ ->] | [(_ & space & Ha & ->) | (_ & rb & Hr & _ & ->)]]).
      * congruence.
      * apply (geometry_full cfg vas s space Hcfg Huse Ha).
      * apply (geometry_partial cfg vas s rb Hcfg Huse Hr).
    + simpl in Hstep. apply Disable_returns in Hstep.
      destruct Hstep as (_ & Hi' & _). congruence.
    + simpl in Hstep. injection Hstep as <-. discriminate.
Qed.

Lemma perform_keeps_disabled (cfg : SandboxConfig) (c : Call) (s s' : Sandbox) :
  disabled_ s = true -> perform cfg c s = Returns s' -> disabled_ s' = true.
Proof.
  intros Hd H. destruct c as [vas | |].
  - apply perform_Initialize_returns in H. destruct H as [b H].
    apply Initialize_outcome in H. destruct H as (_ & Hd' & _). congruence.
  - simpl in H. apply Disable_returns in H. tauto.
  - simpl in H. injection H as <-. exact Hd.
Qed.

Lemma run_keeps_disabled (cfg : SandboxConfig) (cs : list Call) (s s' : Sandbox) :
  disabled_ s = true -> run cfg cs s = Returns s' -> disabled_ s' = true.
Proof.
  revert s. induction cs as [| c cs IH]; intros s Hd Hrun; simpl in Hrun.
  - injection Hrun as <-. exact Hd.
  - destruct (perform cfg c s) as [s1 |] eqn:Hstep; [| discriminate].
    simpl in Hrun. apply (IH s1); [| exact Hrun].
    apply (perform_keeps_disabled cfg c s s1 Hd Hstep).
Qed.

(** ** Facts about the concrete instances *)

Lemma example_config_ok : config_ok example_config.
Proof. split; vm_compute; first [reflexivity | discriminate]. Qed.

Lemma granting_space_ok : space_ok example_config granting_space.
Proof.
  split; intros sz al r H; cbn [granting_space AllocateSubspace ReservePages] in H;
    destruct (sz <=? 2 ^ 46) eqn:Hsz; try discriminate;
    apply Z.leb_le in Hsz; injection H as <-;
    cbn [space_base example_config sandbox_size];
    rewrite kAddressSpaceEnd_value; lia.
Qed.

Lemma pages_only_space_ok : space_ok example_config pages_only_space.
Proof.
  split; intros sz al r H;
    cbn [pages_only_space AllocateSubspace ReservePages] in H;
    [discriminate |].
  destruct (sz <=? 2 ^ 46) eqn:Hsz; try discriminate.
  injection H as <-. cbn [example_config sandbox_size].
  rewrite kAddressSpaceEnd_value. lia.
Qed.

Lemma exhausted_space_fails : fails_every_attempt example_config exhausted_space.
Proof. split; reflexivity. Qed.

Lemma fresh_preconditions :
  initialize_preconditions example_config exhausted_space Sandbox_default.
Proof. split; vm_compute; reflexivity. Qed.

Lemma example_full_sandbox_reachable (spaces : VirtualAddressSpace -> Prop) :
  spaces granting_space -> reachable example_config spaces example_full_sandbox.
Proof.
  intros H.
  apply (reachable_call example_config spaces Sandbox_default
           example_full_sandbox (CallInitialize granting_space)).
  - apply reachable_fresh.
  - exact H.
  - vm_compute. reflexivity.
Qed.

Lemma example_partial_sandbox_reachable (spaces : VirtualAddressSpace -> Prop) :
  spaces pages_only_space ->
  reachable example_config spaces example_partial_sandbox.
Proof.
  intros H.
  apply (reachable_call example_config spaces Sandbox_default
           example_partial_sandbox (CallInitialize pages_only_space)).
  - apply reachable_fresh.
  - exact H.
  - vm_compute. reflexivity.
Qed.

(** ** Storage of the objects *)

Lemma load_base (this : Address) (s : Sandbox) :
  load this s (base_address this) = Some (base s).
Proof.
  unfold load, base_address, offsetof_base_. decide_addresses. reflexivity.
Qed.

Lemma load_end (this : Address) (s : Sandbox) :
  load this s (end_address this) = Some (end' s).
Proof.
  unfold load, end_address, offsetof_base_, offsetof_end_.
  decide_addresses. reflexivity.
Qed.

Lemma load_size (this : Address) (s : Sandbox) :
  load this s (size_address this) = Some (size s).
Proof.
  unfold load, size_address, offsetof_base_, offsetof_end_, offsetof_size_.
  decide_addresses. reflexivity.
Qed.

Lemma load_constant (this : Address) (c : SandboxedPointerConstants.t) :
  SandboxedPointerConstants.load this c
    (SandboxedPointerConstants.empty_backing_store_buffer_address this)
  = Some (SandboxedPointerConstants.empty_backing_store_buffer c).
Proof.
  unfold SandboxedPointerConstants.load,
    SandboxedPointerConstants.empty_backing_store_buffer_address.
  rewrite Z.eqb_refl. reflexivity.
Qed.

Lemma load_sandbox_constant (this : Address) (s : Sandbox) :
  load this s
    (SandboxedPointerConstants.empty_backing_store_buffer_address
       (constants_address this))
  = Some (SandboxedPointerConstants.empty_backing_store_buffer (constants s)).
Proof.
  unfold load, SandboxedPointerConstants.load,
    SandboxedPointerConstants.empty_backing_store_buffer_address,
    SandboxedPointerConstants.offsetof_empty_backing_store_buffer_,
    constants_address, offsetof_constants_, offsetof_base_, offsetof_end_,
    offsetof_size_, offsetof_reservation_base_, offsetof_reservation_size_.
  decide_addresses. reflexivity.
Qed.

(** * The claims *)

(** C1.  [Contains(a)] is true exactly when [a >= base()] and
    [a < base() + size()], the sum being the one the code computes on
    [Address]; whenever the region ends inside the address space this is the
    plain sum.  The function only reads the sandbox and returns a [bool], so
    it has no effect on any state.  It answers [false] for every address on a
    freshly constructed sandbox and on every uninitialized sandbox of a
    lifetime.  For a sandbox with the geometry of an initialized one, and so
    for every initialized sandbox of a lifetime, [Contains(base())] holds,
    [Contains(end())] and [Contains(base() - 1)] do not, and every address
    from [base()] up to but excluding [end()] is contained. *)
Theorem Contains_iff_within_bounds :
  (forall s a,
     Contains s a = true <-> a >= base s /\ a < uadd (base s) (size s)) /\
  (forall s a,
     is_address (base s + size s) ->
     (Contains s a = true <-> a >= base s /\ a < base s + size s)) /\
  (forall a, Contains Sandbox_default a = false) /\
  (forall cfg spaces s a,
     reachable cfg spaces s -> is_initialized s = false ->
     Contains s a = false) /\
  (forall s, geometry_ok s -> Contains_respects_bounds s) /\
  (forall cfg s,
     config_ok cfg -> reachable cfg (space_ok cfg) s ->
     is_initialized s = true ->
     Contains_respects_bounds s).
Proof.
  repeat apply conj.
  - intros s a. rewrite Contains_true_iff. lia.
  - intros s a Hfit. rewrite Contains_true_iff, (uadd_exact _ _ Hfit). lia.
  - intros a. apply Contains_empty; reflexivity.
  - intros cfg spaces s a Hreach Hinit.
    destruct (reachable_lifecycle_inv cfg spaces s Hreach) as [_ _ Hun].
    destruct (Hun Hinit) as (Hb & _ & Hs & _).
    apply Contains_empty; assumption.
  - intros s Hgeo. apply Contains_geometry. exact Hgeo.
  - intros cfg s Hcfg Hreach Hinit. apply Contains_geometry.
    apply (reachable_geometry cfg s Hcfg Hreach Hinit).
Qed.

Lemma Contains_iff_within_bounds_witness :
  Contains_respects_bounds example_full_sandbox /\
  Contains_respects_bounds example_partial_sandbox /\
  Contains example_disabled_sandbox 0 = false.
Proof.
  destruct Contains_iff_within_bounds as (_ & _ & _ & Huninit & _ & Hinit).
  split; [| split].
  - apply (Hinit example_config).
    + exact example_config_ok.
    + apply example_full_sandbox_reachable. exact granting_space_ok.
    + reflexivity.
  - apply (Hinit example_config).
    + exact example_config_ok.
    + apply example_partial_sandbox_reachable. exact pages_only_space_ok.
    + reflexivity.
  - apply (Huninit example_config any_space).
    + apply (reachable_call example_config any_space Sandbox_default
               example_disabled_sandbox CallDisable).
      * apply reachable_fresh.
      * exact I.
      * reflexivity.
    + reflexivity.
Defined.

(** C2.  [is_partially_reserved()] is [reservation_size() < size()] in every
    state of the sandbox, so in particular before initialization, after
    either kind of successful initialization and after [TearDown]. *)
Theorem is_partially_reserved_iff_reservation_smaller :
  (forall s, is_partially_reserved s = (reservation_size s <? size s)) /\
  (forall s, is_partially_reserved s = true <-> reservation_size s < size s).
Proof.
  split.
  - intros s. reflexivity.
  - intros s. unfold is_partially_reserved, reservation_size, size.
    apply Z.ltb_lt.
Qed.

Lemma is_partially_reserved_witness :
  is_partially_reserved Sandbox_default = false /\
  is_partially_reserved example_full_sandbox = false /\
  is_partially_reserved example_partial_sandbox = true /\
  is_partially_reserved (TearDown example_partial_sandbox) = false.
Proof.
  destruct is_partially_reserved_iff_reservation_smaller as (H & _).
  repeat split; rewrite H; reflexivity.
Defined.

(** C9.  The pointer overload of [Contains] gives the answer of the address
    overload at the address obtained by reinterpreting the pointer. *)
Theorem Contains_ptr_agrees_with_Contains :
  forall s p, Contains_ptr s p = Contains s (reinterpret_cast_Address p).
Proof. intros s p. unfold Contains_ptr. reflexivity. Qed.

(** C3.  When the address space refuses both requests that [Initialize]
    makes, the full reservation and the smaller fallback reservation, a call
    that meets the preconditions returns [false] and hands back the sandbox
    it was given: [is_initialized()] is still false and, on a sandbox of a
    lifetime, every geometry field still has its zero value. *)
Theorem Initialize_failure_changes_nothing
    (cfg : SandboxConfig) (vas : VirtualAddressSpace) (s : Sandbox) :
  initialize_preconditions cfg vas s ->
  fails_every_attempt cfg vas ->
  Initialize cfg vas s = Returns (false, s) /\
  is_initialized s = false /\
  (forall spaces,
     reachable cfg spaces s ->
     base s = 0 /\ end' s = 0 /\ size s = 0 /\
     reservation_base_ s = 0 /\ reservation_size s = 0).
Proof.
  intros [Hi Hd Hm Hf Hlt] [Hfull Hfallback]. repeat apply conj.
  - unfold Initialize, Initialize_with_size,
      InitializeAsPartiallyReservedSandbox.
    fold (full_reservation_size cfg).
    apply Z.ltb_lt in Hlt.
    rewrite Hi, Hd, Hm, Hfull, Hf, Hlt, Hfallback.
    cbn [bind CHECK negb fst snd]. rewrite Hi, Hd. reflexivity.
  - exact Hi.
  - intros spaces Hreach.
    destruct (reachable_lifecycle_inv cfg spaces s Hreach) as [_ _ Hun].
    destruct (Hun Hi) as (Hb & He & Hs & Hrb & Hrs & _).
    unfold base, end', size, reservation_size. tauto.
Qed.

Lemma Initialize_failure_changes_nothing_witness :
  Initialize example_config exhausted_space Sandbox_default
    = Returns (false, Sandbox_default) /\
  is_initialized Sandbox_default = false.
Proof.
  destruct (Initialize_failure_changes_nothing example_config exhausted_space
              Sandbox_default fresh_preconditions exhausted_space_fails)
    as (Hret & Hinit & _).
  split; [exact Hret | exact Hinit].
Defined.

(** C4.  [Disable()] requires an uninitialized sandbox.  There it returns
    with [is_disabled()] true and [is_enabled()] false, and the flag stays
    set through every later sequence of calls that returns.  On an
    initialized sandbox, in particular on the one a successful
    [Initialize] hands back, the [CHECK] fails at once. *)
Theorem Disable_requires_uninitialized :
  (forall s,
     is_initialized s = false ->
     exists s', Disable s = Returns s' /\
                is_disabled s' = true /\ is_enabled s' = false) /\
  (forall s, is_initialized s = true -> Disable s = CheckFailed) /\
  (forall cfg vas s s',
     Initialize cfg vas s = Returns (true, s') -> Disable s' = CheckFailed) /\
  (forall cfg cs s s',
     is_disabled s = true -> run cfg cs s = Returns s' ->
     is_disabled s' = true /\ is_enabled s' = false).
Proof.
  repeat apply conj.
  - intros s Hi. destruct (Disable_uninitialized s Hi) as [s' Hs'].
    exists s'. split; [exact Hs' |].
    apply Disable_returns in Hs'. destruct Hs' as (_ & _ & Hd & _).
    unfold is_disabled, is_enabled. rewrite Hd. split; reflexivity.
  - intros s Hi. apply Disable_initialized. exact Hi.
  - intros cfg vas s s' H. apply Disable_initialized.
    apply Initialize_outcome in H.
    destruct H as (_ & _ & [[Hb _] | [(_ & sp & _ & ->) | (_ & rb & _ & _ & ->)]]).
    + discriminate.
    + reflexivity.
    + reflexivity.
  - intros cfg cs s s' Hd Hrun. unfold is_disabled, is_enabled in *.
    rewrite (run_keeps_disabled cfg cs s s' Hd Hrun). split; reflexivity.
Qed.

Lemma Disable_requires_uninitialized_witness :
  Disable example_full_sandbox = CheckFailed /\
  (exists s', Disable Sandbox_default = Returns s' /\
              is_disabled s' = true /\ is_enabled s' = false) /\
  is_disabled (TearDown example_disabled_sandbox) = true.
Proof.
  destruct Disable_requires_uninitialized as (Hok & Hfail & _ & Hkeep).
  split; [| split].
  - apply Hfail. reflexivity.
  - apply Hok. reflexivity.
  - apply (Hkeep example_config [CallTearDown] example_disabled_sandbox).
    + reflexivity.
    + reflexivity.
Defined.

(** C5.  [end()] is [base() + size()] in every state of a lifetime: in the
    freshly constructed sandbox, after a call of [Initialize] whichever path
    it takes, after [Disable] and after [TearDown].  The sum is the one
    computed on [Address]; when the address spaces behave it is the plain
    sum. *)
Theorem end_is_base_plus_size :
  (forall cfg spaces s,
     reachable cfg spaces s -> end' s = uadd (base s) (size s)) /\
  (forall cfg s,
     config_ok cfg -> reachable cfg (space_ok cfg) s ->
     end' s = base s + size s) /\
  end' Sandbox_default = base Sandbox_default + size Sandbox_default /\
  (forall cfg vas s s',
     Initialize cfg vas s = Returns (true, s') ->
     end' s' = uadd (base s') (size s')) /\
  (forall s, end' (TearDown s) = base (TearDown s) + size (TearDown s)).
Proof.
  repeat apply conj; [| | reflexivity | | intros s; reflexivity].
  - intros cfg spaces s Hreach.
    destruct (reachable_lifecycle_inv cfg spaces s Hreach) as [Hend _ _].
    exact Hend.
  - intros cfg s Hcfg Hreach.
    destruct (initialized_ s) eqn:Hi.
    + destruct (reachable_geometry cfg s Hcfg Hreach Hi) as [_ _ _ Hend].
      exact Hend.
    + destruct (reachable_lifecycle_inv cfg _ s Hreach) as [_ _ Hun].
      destruct (Hun Hi) as (Hb & He & Hs & _).
      unfold end', base, size. rewrite Hb, He, Hs. reflexivity.
  - intros cfg vas s s' H. apply Initialize_outcome in H.
    destruct H as (_ & _ & [[Hb _] | [(_ & sp & _ & ->) | (_ & rb & _ & _ & ->)]]).
    + discriminate.
    + reflexivity.
    + reflexivity.
Qed.

Lemma end_is_base_plus_size_witness :
  end' example_full_sandbox
    = base example_full_sandbox + size example_full_sandbox /\
  end' example_partial_sandbox
    = base example_partial_sandbox + size example_partial_sandbox.
Proof.
  destruct end_is_base_plus_size as (_ & H & _).
  split; apply (H example_config); try exact example_config_ok.
  - apply example_full_sandbox_reachable. exact granting_space_ok.
  - apply example_partial_sandbox_reachable. exact pages_only_space_ok.
Defined.

(** C6.  The empty-backing-store constant of a newly constructed constants
    object, and of a freshly constructed sandbox, is the null sentinel 0.
    After [set_empty_backing_store_buffer(X)] the accessor returns [X] and
    the word stored at [empty_backing_store_buffer_address()] is [X]; the same
    address read through the enclosing sandbox object gives the accessor's
    value.  [Reset()] puts the sentinel back. *)
Theorem constants_set_then_read :
  SandboxedPointerConstants.empty_backing_store_buffer
    SandboxedPointerConstants.initial = 0 /\
  SandboxedPointerConstants.empty_backing_store_buffer
    (constants Sandbox_default) = 0 /\
  (forall this X c,
     SandboxedPointerConstants.empty_backing_store_buffer
       (SandboxedPointerConstants.set_empty_backing_store_buffer X c) = X /\
     SandboxedPointerConstants.load this
       (SandboxedPointerConstants.set_empty_backing_store_buffer X c)
       (SandboxedPointerConstants.empty_backing_store_buffer_address this)
     = Some X) /\
  (forall this c,
     SandboxedPointerConstants.empty_backing_store_buffer
       (SandboxedPointerConstants.Reset c) = 0 /\
     SandboxedPointerConstants.load this (SandboxedPointerConstants.Reset c)
       (SandboxedPointerConstants.empty_backing_store_buffer_address this)
     = Some 0) /\
  (forall this s,
     load this s
       (SandboxedPointerConstants.empty_backing_store_buffer_address
          (constants_address this))
     = Some (SandboxedPointerConstants.empty_backing_store_buffer (constants s))).
Proof.
  repeat apply conj.
  - reflexivity.
  - reflexivity.
  - intros this X c. split; [reflexivity |].
    rewrite load_constant. reflexivity.
  - intros this c. split; [reflexivity |].
    rewrite load_constant. reflexivity.
  - intros this s. apply load_sandbox_constant.
Qed.

(** C7.  With sandboxed pointers compiled in, [EmptyBackingStoreBuffer()]
    returns the empty-backing-store constant of the process-wide sandbox,
    reinterpreted as a pointer.  With them compiled out it returns [nullptr]
    whatever the process-wide sandbox is. *)
Theorem EmptyBackingStoreBuffer_by_build :
  (forall p,
     EmptyBackingStoreBuffer true p
     = reinterpret_cast_void_ptr
         (SandboxedPointerConstants.empty_backing_store_buffer
            (constants (GetProcessWideSandbox p)))) /\
  (forall p, EmptyBackingStoreBuffer false p = nullptr) /\
  (forall p q, EmptyBackingStoreBuffer false p = EmptyBackingStoreBuffer false q).
Proof. repeat apply conj; intros; reflexivity. Qed.

(** C8.  [base_address()], [end_address()] and [size_address()] are the
    addresses of the members [base_], [end_] and [size_] inside the sandbox
    object, three different places that do not depend on what the members
    hold.  Whatever the state of the sandbox, the word stored at each of them
    is the value that [base()], [end()], respectively [size()] returns. *)
Theorem address_accessors_point_at_members :
  (forall this,
     base_address this = this + offsetof_base_ /\
     end_address this = this + offsetof_end_ /\
     size_address this = this + offsetof_size_) /\
  (forall this,
     base_address this <> end_address this /\
     base_address this <> size_address this /\
     end_address this <> size_address this) /\
  (forall this s,
     load this s (base_address this) = Some (base s) /\
     load this s (end_address this) = Some (end' s) /\
     load this s (size_address this) = Some (size s)).
Proof.
  repeat apply conj.
  - intros this. repeat split.
  - intros this.
    unfold base_address, end_address, size_address, offsetof_base_,
      offsetof_end_, offsetof_size_.
    repeat split; lia.
  - intros this s. repeat split.
    + apply load_base.
    + apply load_end.
    + apply load_size.
Qed.

(** C10.  On an uninitialized sandbox [Disable()] returns, and the state it
    leaves differs from the one it found in the [disabled] flag at most:
    [base], [end], [size], [reservationBase], [reservationSize],
    [initialized], the address space, the page allocator and the constants
    are as before.  A further [Disable()] returns the very same state, and
    on a sandbox that was already disabled the first call changes nothing. *)
Theorem Disable_changes_only_disabled (s : Sandbox) :
  is_initialized s = false ->
  exists s',
    Disable s = Returns s' /\
    same_but_disabled s s' /\
    Disable s' = Returns s' /\
    (is_disabled s = true -> s' = s).
Proof.
  unfold is_initialized, is_disabled. intros Hi.
  destruct s as [b e sz rb rs i d sp pa c]. simpl in Hi. subst i.
  eexists. split; [reflexivity |]. split; [| split].
  - repeat split.
  - reflexivity.
  - simpl. intros ->. reflexivity.
Qed.

Lemma Disable_changes_only_disabled_witness :
  exists s',
    Disable Sandbox_default = Returns s' /\
    same_but_disabled Sandbox_default s' /\
    Disable s' = Returns s' /\
    (is_disabled Sandbox_default = true -> s' = Sandbox_default).
Proof. apply (Disable_changes_only_disabled Sandbox_default). reflexivity. Defined.

(** * Further properties of the header *)

(** ** Wrap-around of the end of the region *)

Lemma uadd_cases (a b : Z) :
  is_address a -> is_address b ->
  (a + b < kAddressSpaceEnd /\ uadd a b = a + b) \/
  (kAddressSpaceEnd <= a + b /\ uadd a b = a + b - kAddressSpaceEnd).
Proof.
  unfold is_address. intros Ha Hb.
  destruct (Z_lt_le_dec (a + b) kAddressSpaceEnd) as [Hlt | Hge].
  - left. split; [exact Hlt |]. apply uadd_exact. unfold is_address. lia.
  - right. split; [exact Hge |]. unfold uadd, wrap.
    symmetry. apply (Z.mod_unique_pos (a + b) kAddressSpaceEnd 1); lia.
Qed.

(** X1.  Whatever the sum [base_ + size_] does, an address that [Contains]
    accepts is a 64-bit address at or above [base()] whose offset from
    [base()] is smaller than [size()]. *)
Theorem Contains_offset_below_size (s : Sandbox) (a : Address) :
  is_address (base s) -> is_address (size s) ->
  Contains s a = true ->
  is_address a /\ 0 <= a - base s < size s.
Proof.
  intros Hb Hs Hc. apply Contains_true_iff in Hc. destruct Hc as [Hlo Hhi].
  pose proof (wrap_range (base s + size s)) as Hw. fold (uadd (base s) (size s)) in Hw.
  unfold is_address in *.
  destruct (uadd_cases (base s) (size s) Hb Hs) as [[_ E] | [_ E]];
    rewrite E in *; lia.
Qed.

Lemma Contains_offset_below_size_witness :
  is_address (2 ^ 44 + 2 ^ 35 + 4096) /\
  0 <= (2 ^ 44 + 2 ^ 35 + 4096) - base example_full_sandbox
    < size example_full_sandbox.
Proof.
  apply (Contains_offset_below_size example_full_sandbox (2 ^ 44 + 2 ^ 35 + 4096)).
  - vm_compute. split; [discriminate | reflexivity].
  - vm_compute. split; [discriminate | reflexivity].
  - vm_compute. reflexivity.
Defined.

(** X2.  Two addresses that [Contains] accepts lie less than [size()] apart,
    so the difference of two sandbox addresses always fits an offset. *)
Theorem Contains_distance_below_size (s : Sandbox) (a b : Address) :
  is_address (base s) -> is_address (size s) ->
  Contains s a = true -> Contains s b = true ->
  Z.abs (a - b) < size s.
Proof.
  intros Hb Hs Ha Hc.
  apply Contains_true_iff in Ha. apply Contains_true_iff in Hc.
  unfold is_address in *.
  destruct (uadd_cases (base s) (size s) Hb Hs) as [[_ E] | [_ E]];
    rewrite E in *; lia.
Qed.

Lemma Contains_distance_below_size_witness :
  Z.abs ((2 ^ 44 + 2 ^ 35) - (2 ^ 44 + 2 ^ 35 + 2 ^ 40 - 1))
    < size example_full_sandbox.
Proof.
  apply (Contains_distance_below_size example_full_sandbox).
  - vm_compute. split; [discriminate | reflexivity].
  - vm_compute. split; [discriminate | reflexivity].
  - vm_compute. reflexivity.
  - vm_compute. reflexivity.
Defined.

(** X3.  [Contains] rejects every address exactly when the computed end
    [base_ + size_] is not above [base_]. *)
Theorem Contains_nowhere_iff (s : Sandbox) :
  (forall a, Contains s a = false) <-> uadd (base s) (size s) <= base s.
Proof.
  split.
  - intros H. specialize (H (base s)). apply Contains_false_iff in H. lia.
  - intros H a. apply Contains_false_iff. lia.
Qed.

(** X4.  Two degenerate regions contain nothing: one of size 0, and one whose
    end [base_ + size_] reaches or passes [2^64], where the sum wraps around;
    a region that covers the last bytes of the address space is therefore
    reported empty. *)
Theorem Contains_degenerate_region (s : Sandbox) :
  is_address (base s) -> is_address (size s) ->
  size s = 0 \/ kAddressSpaceEnd <= base s + size s ->
  forall a, Contains s a = false.
Proof.
  intros Hb Hs Hdeg a. apply Contains_false_iff.
  unfold is_address in *.
  destruct (uadd_cases (base s) (size s) Hb Hs) as [[Hlt E] | [Hge E]];
    rewrite E; destruct Hdeg as [Hz | Hov]; lia.
Qed.

Lemma Contains_degenerate_region_witness :
  Contains top_page_sandbox (2 ^ 64 - 1) = false /\
  Contains top_page_sandbox (base top_page_sandbox) = false /\
  Contains zero_size_sandbox (base zero_size_sandbox) = false.
Proof.
  split; [| split].
  - apply (Contains_degenerate_region top_page_sandbox).
    + vm_compute. split; [discriminate | reflexivity].
    + vm_compute. split; [discriminate | reflexivity].
    + right. vm_compute. discriminate.
  - apply (Contains_degenerate_region top_page_sandbox).
    + vm_compute. split; [discriminate | reflexivity].
    + vm_compute. split; [discriminate | reflexivity].
    + right. vm_compute. discriminate.
  - apply (Contains_degenerate_region zero_size_sandbox).
    + vm_compute. split; [discriminate | reflexivity].
    + vm_compute. split; [discriminate | reflexivity].
    + left. reflexivity.
Defined.

(** X5.  The accepted addresses form an interval: an address between two
    accepted addresses is accepted. *)
Theorem Contains_convex (s : Sandbox) (a b c : Address) :
  Contains s a = true -> Contains s b = true ->
  a <= c <= b ->
  Contains s c = true.
Proof.
  intros Ha Hb Hc.
  apply Contains_true_iff in Ha. apply Contains_true_iff in Hb.
  apply Contains_true_iff. lia.
Qed.

Lemma Contains_convex_witness :
  Contains example_partial_sandbox (2 ^ 44 + 2 ^ 33) = true.
Proof.
  apply (Contains_convex example_partial_sandbox (2 ^ 44)
           (2 ^ 44 + 2 ^ 40 - 1) (2 ^ 44 + 2 ^ 33)).
  - vm_compute. reflexivity.
  - vm_compute. reflexivity.
  - vm_compute. split; discriminate.
Defined.

(** ** What [Disable] leaves observable *)



(** ** Null pointers *)

(** X7.  A sandbox whose base is not the null address contains neither
    [nullptr] nor the pointer that [EmptyBackingStoreBuffer()] returns in a
    build without sandboxed pointers. *)
Theorem nullptr_outside_sandbox (s : Sandbox) :
  0 < base s ->
  Contains_ptr s nullptr = false /\
  (forall p, Contains_ptr s (EmptyBackingStoreBuffer false p) = false).
Proof.
  intros Hb.
  assert (H : Contains_ptr s nullptr = false).
  { unfold Contains_ptr, reinterpret_cast_Address, nullptr. simpl.
    apply Contains_false_iff. left. exact Hb. }
  split; [exact H |]. intros p. exact H.
Qed.

Lemma nullptr_outside_sandbox_witness :
  Contains_ptr example_full_sandbox nullptr = false /\
  (forall p,
     Contains_ptr example_full_sandbox (EmptyBackingStoreBuffer false p) = false).
Proof.
  apply (nullptr_outside_sandbox example_full_sandbox). vm_compute. reflexivity.
Defined.

(** X8.  The two builds of [EmptyBackingStoreBuffer()] return the same
    pointer exactly when the constant of the process-wide sandbox is 0, as it
    is for a freshly constructed sandbox and after [Reset()] of its
    constants; once the constant is set to a non-null address the sandboxed
    build no longer returns [nullptr]. *)
Theorem EmptyBackingStoreBuffer_builds_agree_iff_null :
  (forall p,
     EmptyBackingStoreBuffer true p = EmptyBackingStoreBuffer false p <->
     SandboxedPointerConstants.empty_backing_store_buffer
       (constants (GetProcessWideSandbox p)) = 0) /\
  (forall p,
     constants (GetProcessWideSandbox p) = SandboxedPointerConstants.initial ->
     EmptyBackingStoreBuffer true p = nullptr) /\
  (forall p c,
     constants (GetProcessWideSandbox p) = SandboxedPointerConstants.Reset c ->
     EmptyBackingStoreBuffer true p = nullptr) /\
  (forall p c X,
     X <> 0 ->
     constants (GetProcessWideSandbox p)
       = SandboxedPointerConstants.set_empty_backing_store_buffer X c ->
     EmptyBackingStoreBuffer true p <> nullptr /\
     reinterpret_cast_Address (EmptyBackingStoreBuffer true p) = X).
Proof.
  repeat apply conj.
  - intros p. unfold EmptyBackingStoreBuffer, reinterpret_cast_void_ptr, nullptr.
    split.
    + intros H. injection H as H. exact H.
    + intros ->. reflexivity.
  - intros p H. unfold EmptyBackingStoreBuffer. rewrite H. reflexivity.
  - intros p c H. unfold EmptyBackingStoreBuffer. rewrite H. reflexivity.
  - intros p c X HX H. unfold EmptyBackingStoreBuffer. rewrite H. simpl.
    split; [| reflexivity].
    unfold reinterpret_cast_void_ptr, nullptr. intros E. injection E as E.
    exact (HX E).
Qed.

Lemma EmptyBackingStoreBuffer_builds_agree_witness :
  EmptyBackingStoreBuffer true fresh_process = nullptr /\
  EmptyBackingStoreBuffer true example_process <> nullptr /\
  reinterpret_cast_Address (EmptyBackingStoreBuffer true example_process)
    = 2 ^ 44 + 2 ^ 35 + 2 ^ 40 - 1.
Proof.
  destruct EmptyBackingStoreBuffer_builds_agree_iff_null as (_ & Hfresh & _ & Hset).
  split.
  - apply Hfresh. reflexivity.
  - apply (Hset example_process SandboxedPointerConstants.initial).
    + vm_compute. discriminate.
    + reflexivity.
Defined.
